(** * sagemaker.lineage.lineage_trial_component

    A shallow embedding of [LineageTrialComponent]
    (src/sagemaker/lineage/lineage_trial_component.py) and the properties
    its specification states about it.

    The class is a data-binding layer: every method reads attributes of
    [self], calls a collaborator (the boto client behind the session, the
    lineage-query engine, a vertex's conversion method) and post-processes
    the answer.  The embedding therefore has three layers:

    - Python values and the instance ([vars] as a finite map);
    - a small program type [prog] whose nodes are the attribute reads and
      writes on [self] and the calls to collaborators;
    - an interpreter [run] that threads the instance and the state of the
      outside world through a program, against an arbitrary behaviour of
      the collaborators, and records the calls made. *)

From stdpp Require Import gmap strings list fin_maps.

Set Default Proof Using "Type".

(** ** Python values *)

#[local] Set Warnings "-register-all".

Inductive value : Type :=
| VNone
| VStr (s : string)
| VInt (n : Z)
| VList (l : list value)
| VDict (d : list (string * value)).

(** A value counts as populated when it is not [None]. *)
Definition populated (v : value) : bool :=
  match v with
  | VNone => false
  | _ => true
  end.

(** ** The collaborators' vocabulary *)

(** Handle on a [sagemaker.session.Session] object.  The session is shared
    with the collaborators; its state lives in the world, the instance only
    holds the reference. *)
Inductive Session : Type := SessionRef (id : nat).

(** One entry of the ["Tags"] list of a [list_tags] response. *)
Record Tag : Type := mkTag { Key : string; Value : string }.

(** Modelled from the spec: the filter and enum vocabulary of
    [sagemaker.lineage.query], which is imported but not part of this
    module.  The spec names the members used here and says "at least";
    the remaining members are kept as one open constructor each. *)
Inductive LineageEntityEnum : Type :=
| ARTIFACT
| OTHER_ENTITY (name : string).

Inductive LineageSourceEnum : Type :=
| DATASET
| MODEL
| OTHER_SOURCE (name : string).

Inductive LineageQueryDirectionEnum : Type :=
| BOTH
| ASCENDANTS
| DESCENDANTS.

Record LineageFilter : Type := mkLineageFilter {
  entities : list LineageEntityEnum;
  sources : list LineageSourceEnum
}.

(** Modelled from the spec: the result shape of the lineage-query engine,
    [result{vertices}], each vertex convertible to a domain object. *)
Record Vertex : Type := mkVertex {
  arn : string;
  lineage_entity : string;
  lineage_source : string
}.

Record LineageQueryResult : Type := mkLineageQueryResult {
  edges : list (string * string);
  vertices : list Vertex
}.

Inductive LineageObject : Type :=
| ArtifactObject (artifact_arn : string)
| OtherObject (kind : string) (object_arn : string).

(** Errors a collaborator can raise, after the spec's taxonomy. *)
Inductive exn : Type :=
| NotFound
| Unauthorized
| Throttled
| ValidationError
| OtherError (name : string).

(** ** Calls that leave the module *)

Inductive call : Type :=
| list_tags (session : Session) (ResourceArn : value)
    (* session.sagemaker_client.list_tags(ResourceArn=...)["Tags"] *)
| query (session : Session) (start_arns : list value)
    (query_filter : LineageFilter) (direction : LineageQueryDirectionEnum)
    (include_edges : bool)
    (* LineageQuery(session).query(...) *)
| to_lineage_object (vertex : Vertex)
    (* vertex.to_lineage_object() *)
| boto (session : Session) (method : string) (kwargs : gmap string value).
    (* getattr(session.sagemaker_client, method) applied to kwargs *)

Definition response (c : call) : Type :=
  match c with
  | list_tags _ _ => list Tag
  | query _ _ _ _ _ => LineageQueryResult
  | to_lineage_object _ => LineageObject
  | boto _ _ _ => gmap string value
  end.

Definition is_query (c : call) : bool :=
  match c with
  | query _ _ _ _ _ => true
  | _ => false
  end.

(** ** The instance *)

(** A [LineageTrialComponent] object: the session reference that the
    record constructor stores, and the instance dictionary.  The nineteen
    attributes are declared at class level with value [None], so reading a
    declared attribute that the instance dictionary lacks yields [None]. *)
Record LineageTrialComponent : Type := mkLineageTrialComponent {
  sagemaker_session : Session;
  vars : gmap string value
}.

Definition class_attributes : list string :=
  [ "trial_component_name"; "trial_component_arn"; "display_name"; "source";
    "status"; "start_time"; "end_time"; "creation_time"; "created_by";
    "last_modified_time"; "last_modified_by"; "parameters";
    "input_artifacts"; "output_artifacts"; "metrics";
    "parameters_to_remove"; "input_artifacts_to_remove";
    "output_artifacts_to_remove"; "tags" ]%string.

Definition getattr (self : LineageTrialComponent) (name : string) : value :=
  default VNone (vars self !! name).

(** The assignment [self.<name> = v] of a data attribute, that is of a
    name of [class_attributes].  The session reference is held apart from
    the instance dictionary and is typed as a session, so an assignment to
    [sagemaker_session] (or one that shadows a method by an instance
    attribute) is not an assignment this function describes. *)
Definition setattr (self : LineageTrialComponent) (name : string) (v : value)
  : LineageTrialComponent :=
  {| sagemaker_session := sagemaker_session self;
     vars := <[name := v]> (vars self) |}.

(** ** Programs *)

(** A method body: it returns, raises, reads the session reference or an
    attribute of [self], assigns an attribute of [self], or calls a
    collaborator and continues with what the collaborator returned or
    raised. *)
Inductive prog (R : Type) : Type :=
| Ret (r : R)
| Raise (e : exn)
| GetSession (k : Session → prog R)
| GetAttr (name : string) (k : value → prog R)
| SetAttr (name : string) (v : value) (k : prog R)
| Call (c : call) (k : exn + response c → prog R).

Arguments Ret {R} r.
Arguments Raise {R} e.
Arguments GetSession {R} k.
Arguments GetAttr {R} name k.
Arguments SetAttr {R} name v k.
Arguments Call {R} c k.

Fixpoint prog_bind {A B : Type} (f : A → prog B) (m : prog A) : prog B :=
  match m with
  | Ret a => f a
  | Raise e => Raise e
  | GetSession k => GetSession (λ s, prog_bind f (k s))
  | GetAttr name k => GetAttr name (λ v, prog_bind f (k v))
  | SetAttr name v k => SetAttr name v (prog_bind f k)
  | Call c k => Call c (λ r, prog_bind f (k r))
  end.

#[global] Instance prog_mret : MRet prog := λ _ r, Ret r.
#[global] Instance prog_mbind : MBind prog := λ _ _ f m, prog_bind f m.

(** A plain Python call expression: an exception raised by the callee is
    raised at the call site (there is no [try] around it). *)
Definition invoke (c : call) : prog (response c) :=
  Call c (λ r, match r with
               | inl e => Raise e
               | inr x => Ret x
               end).

Definition self_session : prog Session := GetSession Ret.
Definition self_attr (name : string) : prog value := GetAttr name Ret.
Definition assign (name : string) (v : value) : prog unit :=
  SetAttr name v (Ret tt).

(** ** Running a program against the outside world *)

Record outcome (W R : Type) : Type := mkOutcome {
  result : exn + R;               (* raised or returned *)
  self_after : LineageTrialComponent;
  world_after : W;
  trace : list call               (* collaborator calls, in order *)
}.

Arguments mkOutcome {W R} _ _ _ _.
Arguments result {W R} _.
Arguments self_after {W R} _.
Arguments world_after {W R} _.
Arguments trace {W R} _.

Section Run.
Context {W : Type}.

(** A behaviour of the collaborators: every call is answered by a return
    value or an exception, and may change the state of the world. *)
Definition handler : Type := ∀ c : call, W → (exn + response c) * W.

Fixpoint run {R : Type} (h : handler) (m : prog R)
    (self : LineageTrialComponent) (w : W) : outcome W R :=
  match m with
  | Ret r => mkOutcome (inr r) self w []
  | Raise e => mkOutcome (inl e) self w []
  | GetSession k => run h (k (sagemaker_session self)) self w
  | GetAttr name k => run h (k (getattr self name)) self w
  | SetAttr name v k => run h k (setattr self name v) w
  | Call c k =>
      let '(r, w') := h c w in
      let o := run h (k r) self w' in
      mkOutcome (result o) (self_after o) (world_after o) (c :: trace o)
  end.

(** The conversions of a vertex list succeed one after the other, from
    world [w] to world [w'], and yield [objs]. *)
Inductive converts (h : handler) : W → list Vertex → list LineageObject → W → Prop :=
| converts_nil w : converts h w [] [] w
| converts_cons w w1 w2 vertex rest obj objs :
    h (to_lineage_object vertex) w = (inr obj, w1) →
    converts h w1 rest objs w2 →
    converts h w (vertex :: rest) (obj :: objs) w2.

End Run.

Arguments handler W : clear implicits.

(** ** The methods of the class *)

Definition pipeline_execution_arn_key : string :=
  "sagemaker:pipeline-execution-arn".

(** The [for tag in tags] loop of [pipeline_execution_arn], with its early
    [return] and the final [return None]. *)
Fixpoint pipeline_execution_arn_loop (tags : list Tag) : option string :=
  match tags with
  | [] => None
  | tag :: rest =>
      if decide (Key tag = pipeline_execution_arn_key)
      then Some (Value tag)
      else pipeline_execution_arn_loop rest
  end.

Definition pipeline_execution_arn : prog (option string) :=
  session ← self_session;
  trial_component_arn ← self_attr "trial_component_arn";
  tags ← invoke (list_tags session trial_component_arn);
  mret (pipeline_execution_arn_loop tags).

(** The comprehension [[vertex.to_lineage_object() for vertex in vertices]]:
    the conversions run in list order and the first one that raises ends
    the comprehension. *)
Fixpoint to_lineage_objects (vertices : list Vertex) : prog (list LineageObject) :=
  match vertices with
  | [] => mret []
  | vertex :: rest =>
      obj ← invoke (to_lineage_object vertex);
      objs ← to_lineage_objects rest;
      mret (obj :: objs)
  end.

(** A [direction] of [None] stands for a call that omits the argument, so
    that the default of the [def] line applies. *)
Definition dataset_artifacts (direction : option LineageQueryDirectionEnum)
  : prog (list LineageObject) :=
  let direction := default ASCENDANTS direction in
  let query_filter := {| entities := [ARTIFACT]; sources := [DATASET] |} in
  session ← self_session;
  trial_component_arn ← self_attr "trial_component_arn";
  query_result ← invoke (query session [trial_component_arn] query_filter
                               direction false);
  to_lineage_objects (vertices query_result).

Definition models (direction : option LineageQueryDirectionEnum)
  : prog (list LineageObject) :=
  let direction := default DESCENDANTS direction in
  let query_filter := {| entities := [ARTIFACT]; sources := [MODEL] |} in
  session ← self_session;
  trial_component_arn ← self_attr "trial_component_arn";
  query_result ← invoke (query session [trial_component_arn] query_filter
                               direction false);
  to_lineage_objects (vertices query_result).

(** ** Class-level configuration of the record *)

Definition _boto_create_method : string := "create_trial_component".
Definition _boto_load_method : string := "describe_trial_component".
Definition _boto_delete_method : string := "delete_trial_component".

Definition _boto_update_members : list string :=
  [ "trial_component_name"; "display_name"; "status"; "start_time";
    "end_time"; "parameters"; "input_artifacts"; "output_artifacts";
    "parameters_to_remove"; "input_artifacts_to_remove";
    "output_artifacts_to_remove" ]%string.

Definition _boto_delete_members : list string := [ "trial_component_name" ]%string.

(** ** The record base mechanism *)

(** Modelled from the spec: the session that [load] documents as "created
    using the default AWS configuration chain" when none is given; the
    code that creates it is in the record base, outside this module. *)
Definition default_session : Session := SessionRef 0.

(** Modelled from the spec: [_construct] of the record base
    ([sagemaker.apiutils._base_types.Record], outside this module).  It
    "fetches the remote resource by name using the describe-operation" and
    "returns a fully populated record": one call of the named operation
    with the keyword arguments, whose failure is the caller's failure, and
    a new instance holding the returned fields on top of the keyword
    arguments.  Field names are taken as already converted between the
    attribute names and the remote API's names. *)
Definition _construct (boto_method_name : string)
    (sagemaker_session : option Session) (kwargs : gmap string value)
  : prog LineageTrialComponent :=
  let session := default default_session sagemaker_session in
  boto_response ← invoke (boto session boto_method_name kwargs);
  mret {| sagemaker_session := session; vars := boto_response ∪ kwargs |}.

(** Modelled from the spec: the payload the record base builds for an
    update or delete call, "which fields participate in update/delete
    payloads": the populated attributes of the instance among [members]. *)
Fixpoint payload (members : list string) : prog (gmap string value) :=
  match members with
  | [] => mret ∅
  | name :: rest =>
      v ← self_attr name;
      kwargs ← payload rest;
      mret (if populated v then <[name := v]> kwargs else kwargs)
  end.

(** Modelled from the spec: the "update/delete orchestration given the
    operation names, the allow-list of updatable fields, and the
    delete-payload field list" of the record base: one call of the named
    remote operation with the payload of the given members. *)
Definition record_operation (boto_method : string) (members : list string)
  : prog unit :=
  session ← self_session;
  kwargs ← payload members;
  _ ← invoke (boto session boto_method kwargs);
  mret tt.


Definition delete : prog unit :=
  record_operation _boto_delete_method _boto_delete_members.

(** [load] is a class method: it builds the instance it returns. *)
Definition load (trial_component_name : string)
    (sagemaker_session : option Session) : prog LineageTrialComponent :=
  trial_component ← _construct _boto_load_method sagemaker_session
    {[ "trial_component_name" := VStr trial_component_name ]};
  mret trial_component.

(** Modelled from the spec: the remote store behind the describe-operation.
    It resolves a name to the fields of the resource of that name and
    answers [NotFound] when "the name does not resolve to an existing
    remote resource". *)
Definition describe_trial_component (store : gmap string (gmap string value))
    (kwargs : gmap string value) : exn + gmap string value :=
  match kwargs !! "trial_component_name" with
  | Some (VStr name) =>
      match store !! name with
      | Some fields => inr (<["trial_component_name" := VStr name]> fields)
      | None => inl NotFound
      end
  | _ => inl ValidationError
  end.

(** A behaviour [h] serves the store that [store_of] reads off the world
    when its describe-operation answers from that store. *)
Definition serves {W : Type} (h : handler W)
    (store_of : W → gmap string (gmap string value)) : Prop :=
  ∀ session kwargs w,
    h (boto session _boto_load_method kwargs) w
    = (describe_trial_component (store_of w) kwargs, w).

(** ** The shape the spec gives the two query methods *)

(** Written from the spec's words: "builds a filter selecting graph
    entities of kind artifact whose source type is [source]; invokes the
    lineage-query engine starting from this record's identity, traveling in
    the given direction, excluding edges from the result; maps each
    returned graph vertex to its domain object". *)
Definition source_query_spec (source : LineageSourceEnum)
    (direction : LineageQueryDirectionEnum) : prog (list LineageObject) :=
  GetSession (λ session,
  GetAttr "trial_component_arn" (λ identity,
  Call (query session [identity] (mkLineageFilter [ARTIFACT] [source])
              direction false)
       (λ answer,
          match answer with
          | inl failure => Raise failure
          | inr found => mapM (λ v, invoke (to_lineage_object v)) (vertices found)
          end))).

(** The traversal request of a record for a source kind and a direction. *)
Definition traversal_request (self : LineageTrialComponent)
    (source : LineageSourceEnum) (direction : LineageQueryDirectionEnum) : call :=
  query (sagemaker_session self) [getattr self "trial_component_arn"]
        {| entities := [ARTIFACT]; sources := [source] |} direction false.

(** ** Sample worlds *)

(** A world that counts the calls it has answered.  Tags and the answer of
    the query engine are fixed; a vertex converts to the artifact of its
    arn, except that a vertex whose entity is not an artifact is refused. *)
Definition counting_world (tags : list Tag) (answer : exn + LineageQueryResult)
  : handler nat :=
  λ c, match c as c0 return nat → (exn + response c0) * nat with
       | list_tags _ _ => λ n, (inr tags, S n)
       | query _ _ _ _ _ => λ n, (answer, S n)
       | to_lineage_object vertex => λ n,
           (if decide (lineage_entity vertex = "Artifact")
            then inr (ArtifactObject (arn vertex))
            else inl ValidationError, S n)
       | boto _ _ _ => λ n, (inr ∅, S n)
       end.

(** A world that is a remote store of trial components. *)
Definition store_world : handler (gmap string (gmap string value)) :=
  λ c, match c as c0
         return gmap string (gmap string value)
                → (exn + response c0) * gmap string (gmap string value) with
       | list_tags _ _ => λ st, (inr [], st)
       | query _ _ _ _ _ => λ st, (inr (mkLineageQueryResult [] []), st)
       | to_lineage_object vertex => λ st, (inr (ArtifactObject (arn vertex)), st)
       | boto _ method kwargs => λ st,
           if decide (method = _boto_load_method)
           then (describe_trial_component st kwargs, st)
           else (inl (OtherError "UnknownOperation"), st)
       end.

Definition sample_tags : list Tag :=
  [ mkTag "team" "ml";
    mkTag "sagemaker:pipeline-execution-arn" "arn:pipeline/1";
    mkTag "sagemaker:pipeline-execution-arn" "arn:pipeline/2" ].

Definition sample_vertices : list Vertex :=
  [ mkVertex "arn:artifact/a" "Artifact" "DataSet";
    mkVertex "arn:artifact/b" "Artifact" "DataSet" ].

Definition sample_record : LineageTrialComponent :=
  {| sagemaker_session := SessionRef 7;
     vars := {[ "trial_component_name" := VStr "tc-1";
                "trial_component_arn" := VStr "arn:tc/tc-1";
                "display_name" := VStr "first";
                "metrics" := VList [VInt 3] ]} |}.

Definition sample_store : gmap string (gmap string value) :=
  {[ "tc-1" := {[ "trial_component_arn" := VStr "arn:tc/tc-1";
                  "status" := VStr "Completed" ]} ]}.

(** A world in which every call is refused with the same error. *)
Definition refusing_world (e : exn) : handler nat :=
  λ c n, (inl e, S n).

(** A query answer in which the second vertex is not an artifact, so that
    its conversion is refused in [counting_world]. *)
Definition sample_mixed_vertices : list Vertex :=
  [ mkVertex "arn:artifact/a" "Artifact" "DataSet";
    mkVertex "arn:context/c" "Context" "Endpoint";
    mkVertex "arn:artifact/b" "Artifact" "DataSet" ].

(** A record on which no attribute has been set. *)
Definition sample_unset_record : LineageTrialComponent :=
  {| sagemaker_session := SessionRef 7; vars := ∅ |}.

(** ** Auxiliary notions for the proofs *)

(** Sequencing of outcomes: what [run] does on [m ≫= f], given the outcome
    of [m]. *)
Definition then_run {W A B : Type} (h : handler W) (o : outcome W A)
    (f : A → prog B) : outcome W B :=
  match result o with
  | inl e => mkOutcome (inl e) (self_after o) (world_after o) (trace o)
  | inr a =>
      let o' := run h (f a) (self_after o) (world_after o) in
      mkOutcome (result o') (self_after o') (world_after o')
                (trace o ++ trace o')
  end.

(** A program that never assigns an attribute of [self]. *)
Fixpoint read_only {R : Type} (m : prog R) : Prop :=
  match m with
  | Ret _ | Raise _ => True
  | GetSession k => ∀ s, read_only (k s)
  | GetAttr _ k => ∀ v, read_only (k v)
  | SetAttr _ _ _ => False
  | Call _ k => ∀ r, read_only (k r)
  end.

(** The traversal requests among the calls of a trace. *)
Definition queries_of (t : list call) : list call := List.filter is_query t.

(** The populated attributes of [self] among [members], as a map. *)
Fixpoint selected (self : LineageTrialComponent) (members : list string)
  : gmap string value :=
  match members with
  | [] => ∅
  | name :: rest =>
      if populated (getattr self name)
      then <[name := getattr self name]> (selected self rest)
      else selected self rest
  end.

(** ** General facts about [run] *)

Section Reasoning.
Context {W : Type} (h : handler W).

Lemma run_bind {A B : Type} (m : prog A) (f : A → prog B) self w :
  run h (m ≫= f) self w = then_run h (run h m self w) f.
Proof.
  revert self w.
  induction m as [a|e|k IH|name k IH|name v k IH|c k IH]; intros self w.
  - cbn. unfold then_run; cbn. by destruct (run h (f a) self w).
  - reflexivity.
  - apply IH.
  - apply IH.
  - apply IH.
  - cbn. destruct (h c w) as [r w1]. cbn in IH. rewrite IH.
    unfold then_run; cbn. by destruct (result (run h (k r) self w1)).
Qed.

Lemma run_invoke (c : call) self w :
  run h (invoke c) self w
  = mkOutcome (fst (h c w)) self (snd (h c w)) [c].
Proof. cbn. by destruct (h c w) as [[e|x] w1]. Qed.

Lemma read_only_bind {A B : Type} (m : prog A) (f : A → prog B) :
  read_only m → (∀ a, read_only (f a)) → read_only (m ≫= f).
Proof.
  intros Hm Hf. induction m as [a|e|k IH|name k IH|name v k IH|c k IH]; cbn in *.
  - apply Hf.
  - done.
  - intros s. by apply IH.
  - intros v. by apply IH.
  - done.
  - intros r. by apply IH.
Qed.

Lemma read_only_invoke (c : call) : read_only (invoke c).
Proof. intros [e|x]; exact I. Qed.

Lemma read_only_frame {R : Type} (m : prog R) :
  read_only m → ∀ self w, self_after (run h m self w) = self.
Proof.
  induction m as [a|e|k IH|name k IH|name v k IH|c k IH]; cbn; intros Hm self w.
  - done.
  - done.
  - by apply IH.
  - by apply IH.
  - done.
  - destruct (h c w) as [r w1]. cbn. by apply IH.
Qed.

Lemma read_only_to_lineage_objects vs : read_only (to_lineage_objects vs).
Proof.
  induction vs as [|v vs IH]; [exact I|].
  cbn [to_lineage_objects]. apply read_only_bind; [apply read_only_invoke|].
  intros obj. apply read_only_bind; [exact IH|]. intros objs. exact I.
Qed.

Lemma read_only_pipeline_execution_arn : read_only pipeline_execution_arn.
Proof. intros s v [e|tags]; exact I. Qed.

Lemma read_only_dataset_artifacts direction :
  read_only (dataset_artifacts direction).
Proof.
  intros s v [e|res]; [exact I|]. apply read_only_to_lineage_objects.
Qed.

Lemma read_only_models direction : read_only (models direction).
Proof.
  intros s v [e|res]; [exact I|]. apply read_only_to_lineage_objects.
Qed.

Lemma getattr_setattr_ne self name field v :
  name ≠ field → getattr (setattr self name v) field = getattr self field.
Proof. intros Hne. unfold getattr, setattr; cbn. by rewrite lookup_insert_ne. Qed.

End Reasoning.

(** ** pipeline_execution_arn *)

Lemma pipeline_execution_arn_loop_first before tag after :
  Forall (λ t, Key t ≠ pipeline_execution_arn_key) before →
  Key tag = pipeline_execution_arn_key →
  pipeline_execution_arn_loop (before ++ tag :: after) = Some (Value tag).
Proof.
  intros Hbefore Htag. induction Hbefore as [|t before Ht _ IH]; cbn.
  - by rewrite decide_True.
  - by rewrite decide_False.
Qed.

Lemma pipeline_execution_arn_loop_none tags :
  Forall (λ t, Key t ≠ pipeline_execution_arn_key) tags →
  pipeline_execution_arn_loop tags = None.
Proof.
  induction 1 as [|t tags Ht _ IH]; cbn; [done|]. by rewrite decide_False.
Qed.

Lemma run_pipeline_execution_arn {W : Type} (h : handler W) self w tags w' :
  h (list_tags (sagemaker_session self) (getattr self "trial_component_arn")) w
  = (inr tags, w') →
  run h pipeline_execution_arn self w
  = mkOutcome (inr (pipeline_execution_arn_loop tags)) self w'
      [list_tags (sagemaker_session self) (getattr self "trial_component_arn")].
Proof. intros Hh. cbn. by rewrite Hh. Qed.

(** C1: whatever tag list [list_tags] returns, [pipeline_execution_arn]
    returns the value of the first tag, in the order returned, whose key is
    "sagemaker:pipeline-execution-arn" (so the first of several wins), and
    returns [None] when no tag has that key. *)
Theorem pipeline_execution_arn_first_match {W : Type} (h : handler W)
    (self : LineageTrialComponent) (w w' : W) (tags : list Tag) :
  h (list_tags (sagemaker_session self) (getattr self "trial_component_arn")) w
  = (inr tags, w') →
  (∀ before tag after,
     tags = before ++ tag :: after →
     Forall (λ t, Key t ≠ "sagemaker:pipeline-execution-arn") before →
     Key tag = "sagemaker:pipeline-execution-arn" →
     result (run h pipeline_execution_arn self w) = inr (Some (Value tag)))
  ∧ (Forall (λ t, Key t ≠ "sagemaker:pipeline-execution-arn") tags →
     result (run h pipeline_execution_arn self w) = inr None).
Proof.
  intros Hh. rewrite (run_pipeline_execution_arn h self w tags w' Hh). cbn.
  split.
  - intros before tag after -> Hbefore Htag.
    by rewrite pipeline_execution_arn_loop_first.
  - intros Hnone. by rewrite pipeline_execution_arn_loop_none.
Qed.

Lemma pipeline_execution_arn_first_match_witness :
  result (run (counting_world sample_tags (inl Throttled))
              pipeline_execution_arn sample_record 0)
  = inr (Some "arn:pipeline/1").
Proof.
  apply (proj1 (pipeline_execution_arn_first_match
                  (counting_world sample_tags (inl Throttled))
                  sample_record 0 1 sample_tags eq_refl)
               [mkTag "team" "ml"]
               (mkTag "sagemaker:pipeline-execution-arn" "arn:pipeline/1")
               [mkTag "sagemaker:pipeline-execution-arn" "arn:pipeline/2"]
               eq_refl).
  - constructor; [discriminate|constructor].
  - reflexivity.
Defined.

(** ** dataset_artifacts and models *)

Section Queries.
Context {W : Type} (h : handler W).

Lemma run_to_lineage_objects_cons vertex rest self w :
  run h (to_lineage_objects (vertex :: rest)) self w
  = then_run h (run h (invoke (to_lineage_object vertex)) self w)
      (λ obj, objs ← to_lineage_objects rest; mret (obj :: objs)).
Proof. cbn [to_lineage_objects]. apply run_bind. Qed.

Lemma run_mapM_cons vertex rest self w :
  run h (mapM (λ v, invoke (to_lineage_object v)) (vertex :: rest)) self w
  = then_run h (run h (invoke (to_lineage_object vertex)) self w)
      (λ obj, objs ← mapM (λ v, invoke (to_lineage_object v)) rest;
              mret (obj :: objs)).
Proof. cbn [mapM]. apply run_bind. Qed.

Lemma run_to_lineage_objects_mapM vs self w :
  run h (to_lineage_objects vs) self w
  = run h (mapM (λ v, invoke (to_lineage_object v)) vs) self w.
Proof.
  revert w. induction vs as [|v vs IH]; intros w; [reflexivity|].
  rewrite run_to_lineage_objects_cons, run_mapM_cons, run_invoke.
  unfold then_run; cbn [result self_after world_after trace].
  destruct (h (to_lineage_object v) w) as [[e|obj] w1]; cbn [fst snd]; [done|].
  rewrite !run_bind. cbn [response]. by rewrite IH.
Qed.

Lemma run_to_lineage_objects_converts vs objs self w w' :
  converts h w vs objs w' →
  run h (to_lineage_objects vs) self w
  = mkOutcome (inr objs) self w' (map to_lineage_object vs).
Proof.
  induction 1 as [w|w w1 w2 v vs obj objs Hv _ IH]; [reflexivity|].
  rewrite run_to_lineage_objects_cons, run_invoke, Hv.
  unfold then_run; cbn [result self_after world_after trace fst snd].
  rewrite run_bind. cbn [response]. rewrite IH.
  unfold then_run; cbn. by rewrite app_nil_r.
Qed.

Lemma queries_of_to_lineage_objects vs self w :
  queries_of (trace (run h (to_lineage_objects vs) self w)) = [].
Proof.
  revert w. induction vs as [|v vs IH]; intros w; [reflexivity|].
  rewrite run_to_lineage_objects_cons, run_invoke.
  unfold then_run; cbn [result self_after world_after trace].
  destruct (h (to_lineage_object v) w) as [[e|obj] w1]; cbn [fst snd]; [done|].
  rewrite run_bind. cbn [response]. specialize (IH w1).
  unfold then_run, queries_of in *.
  destruct (run h (to_lineage_objects vs) self w1) as [[e|objs] self1 w2 t];
    cbn in *; [exact IH|].
  by rewrite app_nil_r.
Qed.

(** What [run] does on the shape shared by the two methods. *)
Lemma run_source_query_spec source direction self w :
  run h (source_query_spec source direction) self w
  = match h (traversal_request self source direction) w with
    | (inl e, w1) =>
        mkOutcome (inl e) self w1 [traversal_request self source direction]
    | (inr found, w1) =>
        let o := run h (to_lineage_objects (vertices found)) self w1 in
        mkOutcome (result o) (self_after o) (world_after o)
                  (traversal_request self source direction :: trace o)
    end.
Proof.
  unfold traversal_request. cbn -[mapM to_lineage_objects].
  destruct (h _ w) as [[e|found] w1]; [reflexivity|].
  f_equal; apply (f_equal _), eq_sym, run_to_lineage_objects_mapM.
Qed.

Lemma run_dataset_artifacts_shape direction self w :
  run h (dataset_artifacts direction) self w
  = run h (source_query_spec DATASET (default ASCENDANTS direction)) self w.
Proof.
  cbn -[mapM to_lineage_objects].
  destruct (h _ w) as [[e|found] w1]; [reflexivity|].
  f_equal; apply (f_equal _), run_to_lineage_objects_mapM.
Qed.

Lemma run_models_shape direction self w :
  run h (models direction) self w
  = run h (source_query_spec MODEL (default DESCENDANTS direction)) self w.
Proof.
  cbn -[mapM to_lineage_objects].
  destruct (h _ w) as [[e|found] w1]; [reflexivity|].
  f_equal; apply (f_equal _), run_to_lineage_objects_mapM.
Qed.

Lemma queries_of_source_query_spec source direction self w :
  queries_of (trace (run h (source_query_spec source direction) self w))
  = [traversal_request self source direction].
Proof.
  rewrite run_source_query_spec.
  destruct (h _ w) as [[e|found] w1]; [reflexivity|].
  cbn [trace]. change (queries_of (?q :: ?t)) with (q :: queries_of t) at 1.
  by rewrite queries_of_to_lineage_objects.
Qed.

Lemma source_query_spec_returns source direction self w found w1 objs w2 :
  h (traversal_request self source direction) w = (inr found, w1) →
  converts h w1 (vertices found) objs w2 →
  run h (source_query_spec source direction) self w
  = mkOutcome (inr objs) self w2
      (traversal_request self source direction
       :: map to_lineage_object (vertices found)).
Proof.
  intros Hq Hc. rewrite run_source_query_spec, Hq.
  by rewrite (run_to_lineage_objects_converts _ _ _ _ _ Hc).
Qed.

Lemma source_query_spec_raises source direction self w e w1 :
  h (traversal_request self source direction) w = (inl e, w1) →
  run h (source_query_spec source direction) self w
  = mkOutcome (inl e) self w1 [traversal_request self source direction].
Proof. intros Hq. by rewrite run_source_query_spec, Hq. Qed.

End Queries.

(** C2: for every direction [d], [dataset_artifacts(direction=d)] issues
    exactly one traversal request, with entity filter {ARTIFACT}, source
    filter {DATASET}, the record's [trial_component_arn] as only start arn,
    direction [d] and [include_edges=False]; when the engine answers and
    each vertex converts, it returns the converted vertices in result
    order, and the empty list for a result without vertices. *)
Theorem dataset_artifacts_request_and_result {W : Type} (h : handler W)
    (self : LineageTrialComponent) (w : W) (d : LineageQueryDirectionEnum) :
  queries_of (trace (run h (dataset_artifacts (Some d)) self w))
  = [ query (sagemaker_session self) [getattr self "trial_component_arn"]
            {| entities := [ARTIFACT]; sources := [DATASET] |} d false ]
  ∧ (∀ found w1 objs w2,
       h (query (sagemaker_session self) [getattr self "trial_component_arn"]
                {| entities := [ARTIFACT]; sources := [DATASET] |} d false) w
       = (inr found, w1) →
       converts h w1 (vertices found) objs w2 →
       result (run h (dataset_artifacts (Some d)) self w) = inr objs
       ∧ length objs = length (vertices found)
       ∧ trace (run h (dataset_artifacts (Some d)) self w)
         = query (sagemaker_session self) [getattr self "trial_component_arn"]
                 {| entities := [ARTIFACT]; sources := [DATASET] |} d false
           :: map to_lineage_object (vertices found))
  ∧ (∀ found w1,
       h (query (sagemaker_session self) [getattr self "trial_component_arn"]
                {| entities := [ARTIFACT]; sources := [DATASET] |} d false) w
       = (inr found, w1) →
       vertices found = [] →
       result (run h (dataset_artifacts (Some d)) self w) = inr []).
Proof.
  rewrite run_dataset_artifacts_shape. cbn [default from_option id].
  split; [apply queries_of_source_query_spec|]. split.
  - intros found w1 objs w2 Hq Hc.
    rewrite (source_query_spec_returns h DATASET d self w found w1 objs w2 Hq Hc).
    cbn. split; [done|]. split; [|done].
    clear Hq. induction Hc; cbn; [done|]. by f_equal.
  - intros found w1 Hq Hnil.
    assert (Hc : converts h w1 (vertices found) [] w1)
      by (rewrite Hnil; constructor).
    by rewrite (source_query_spec_returns h DATASET d self w found w1 [] w1 Hq Hc).
Qed.

Lemma dataset_artifacts_request_and_result_witness :
  result (run (counting_world [] (inr (mkLineageQueryResult [] sample_vertices)))
              (dataset_artifacts (Some BOTH)) sample_record 0)
  = inr [ArtifactObject "arn:artifact/a"; ArtifactObject "arn:artifact/b"]
  ∧ result (run (counting_world [] (inr (mkLineageQueryResult [] [])))
                (dataset_artifacts (Some BOTH)) sample_record 0)
    = inr [].
Proof.
  split.
  - refine (proj1 (proj1 (proj2 (dataset_artifacts_request_and_result
        (counting_world [] (inr (mkLineageQueryResult [] sample_vertices)))
        sample_record 0 BOTH))
      (mkLineageQueryResult [] sample_vertices) 1
      [ArtifactObject "arn:artifact/a"; ArtifactObject "arn:artifact/b"] 3
      eq_refl _)).
    eapply converts_cons; [reflexivity|].
    eapply converts_cons; [reflexivity|]. apply converts_nil.
  - exact (proj2 (proj2 (dataset_artifacts_request_and_result
        (counting_world [] (inr (mkLineageQueryResult [] [])))
        sample_record 0 BOTH))
      (mkLineageQueryResult [] []) 1 eq_refl eq_refl).
Defined.

(** C3: [models()] without a direction issues a DESCENDANTS traversal
    with source filter {MODEL}; [dataset_artifacts()] without a direction
    issues an ASCENDANTS traversal; an explicit direction overrides either
    default, so [models(direction=ASCENDANTS)] issues ASCENDANTS. *)
Theorem default_directions {W : Type} (h : handler W)
    (self : LineageTrialComponent) (w : W) (d : LineageQueryDirectionEnum) :
  queries_of (trace (run h (models None) self w))
  = [ query (sagemaker_session self) [getattr self "trial_component_arn"]
            {| entities := [ARTIFACT]; sources := [MODEL] |} DESCENDANTS false ]
  ∧ queries_of (trace (run h (dataset_artifacts None) self w))
    = [ query (sagemaker_session self) [getattr self "trial_component_arn"]
              {| entities := [ARTIFACT]; sources := [DATASET] |} ASCENDANTS false ]
  ∧ queries_of (trace (run h (models (Some d)) self w))
    = [ query (sagemaker_session self) [getattr self "trial_component_arn"]
              {| entities := [ARTIFACT]; sources := [MODEL] |} d false ]
  ∧ queries_of (trace (run h (dataset_artifacts (Some d)) self w))
    = [ query (sagemaker_session self) [getattr self "trial_component_arn"]
              {| entities := [ARTIFACT]; sources := [DATASET] |} d false ]
  ∧ queries_of (trace (run h (models (Some ASCENDANTS)) self w))
    = [ query (sagemaker_session self) [getattr self "trial_component_arn"]
              {| entities := [ARTIFACT]; sources := [MODEL] |} ASCENDANTS false ].
Proof.
  rewrite !run_models_shape, !run_dataset_artifacts_shape.
  repeat split; apply queries_of_source_query_spec.
Qed.

(** C4: for every direction [d] and every behaviour of the engine,
    [models(direction=d)] and [dataset_artifacts(direction=d)] are the same
    computation up to the source filter: each runs as the shape the spec
    describes, at source MODEL and DATASET respectively; their requests
    agree on start arns, entity filter, direction and [include_edges] and
    differ in the source filter only; and when the engine answers the two
    requests alike, both end with the same result, in the same world,
    after the same conversions. *)
Theorem models_is_dataset_artifacts_up_to_source {W : Type} (h : handler W)
    (self : LineageTrialComponent) (w : W) (d : LineageQueryDirectionEnum) :
  run h (models (Some d)) self w = run h (source_query_spec MODEL d) self w
  ∧ run h (dataset_artifacts (Some d)) self w
    = run h (source_query_spec DATASET d) self w
  ∧ (∃ conversions_m conversions_d,
       trace (run h (models (Some d)) self w)
       = query (sagemaker_session self) [getattr self "trial_component_arn"]
               {| entities := [ARTIFACT]; sources := [MODEL] |} d false
         :: conversions_m
       ∧ trace (run h (dataset_artifacts (Some d)) self w)
         = query (sagemaker_session self) [getattr self "trial_component_arn"]
                 {| entities := [ARTIFACT]; sources := [DATASET] |} d false
           :: conversions_d
       ∧ queries_of conversions_m = [] ∧ queries_of conversions_d = []
       ∧ (h (query (sagemaker_session self) [getattr self "trial_component_arn"]
                   {| entities := [ARTIFACT]; sources := [MODEL] |} d false) w
          = h (query (sagemaker_session self) [getattr self "trial_component_arn"]
                     {| entities := [ARTIFACT]; sources := [DATASET] |} d false) w →
          result (run h (models (Some d)) self w)
          = result (run h (dataset_artifacts (Some d)) self w)
          ∧ self_after (run h (models (Some d)) self w)
            = self_after (run h (dataset_artifacts (Some d)) self w)
          ∧ world_after (run h (models (Some d)) self w)
            = world_after (run h (dataset_artifacts (Some d)) self w)
          ∧ conversions_m = conversions_d)).
Proof.
  split; [apply run_models_shape|]. split; [apply run_dataset_artifacts_shape|].
  rewrite run_models_shape, run_dataset_artifacts_shape. cbn [default from_option id].
  rewrite !run_source_query_spec. unfold traversal_request.
  destruct (h (query _ _ {| entities := _; sources := [MODEL] |} _ _) w)
    as [[em|fm] wm];
  destruct (h (query _ _ {| entities := _; sources := [DATASET] |} _ _) w)
    as [[ed|fd] wd]; cbn [trace result self_after world_after].
  - exists [], []. repeat split; congruence.
  - eexists [], _. split; [done|]. split; [done|]. split; [done|].
    split; [apply queries_of_to_lineage_objects|]. intros [=].
  - eexists _, []. split; [done|]. split; [done|].
    split; [apply queries_of_to_lineage_objects|]. split; [done|]. intros [=].
  - eexists _, _. split; [done|]. split; [done|].
    split; [apply queries_of_to_lineage_objects|].
    split; [apply queries_of_to_lineage_objects|].
    intros [= -> ->]. done.
Qed.

Lemma models_is_dataset_artifacts_up_to_source_witness :
  result (run (counting_world [] (inr (mkLineageQueryResult [] sample_vertices)))
              (models (Some BOTH)) sample_record 0)
  = result (run (counting_world [] (inr (mkLineageQueryResult [] sample_vertices)))
                (dataset_artifacts (Some BOTH)) sample_record 0).
Proof.
  destruct (proj2 (proj2 (models_is_dataset_artifacts_up_to_source
    (counting_world [] (inr (mkLineageQueryResult [] sample_vertices)))
    sample_record 0 BOTH))) as (cm & cd & _ & _ & _ & _ & Hsame).
  exact (proj1 (Hsame eq_refl)).
Defined.

(** C5: whatever error the engine's [query] raises, [dataset_artifacts]
    and [models] raise that same error: the outcome is that error, the
    query is the only call made (nothing is retried, no conversion is
    attempted) and no list is returned in its place. *)
Theorem query_errors_propagate {W : Type} (h : handler W)
    (self : LineageTrialComponent) (w w' : W) (e : exn)
    (direction : option LineageQueryDirectionEnum) :
  (h (traversal_request self DATASET (default ASCENDANTS direction)) w
   = (inl e, w') →
   result (run h (dataset_artifacts direction) self w) = inl e
   ∧ trace (run h (dataset_artifacts direction) self w)
     = [traversal_request self DATASET (default ASCENDANTS direction)]
   ∧ world_after (run h (dataset_artifacts direction) self w) = w')
  ∧ (h (traversal_request self MODEL (default DESCENDANTS direction)) w
     = (inl e, w') →
     result (run h (models direction) self w) = inl e
     ∧ trace (run h (models direction) self w)
       = [traversal_request self MODEL (default DESCENDANTS direction)]
     ∧ world_after (run h (models direction) self w) = w').
Proof.
  split; intros Hq.
  - rewrite run_dataset_artifacts_shape.
    by rewrite (source_query_spec_raises h _ _ self w e w' Hq).
  - rewrite run_models_shape.
    by rewrite (source_query_spec_raises h _ _ self w e w' Hq).
Qed.

Lemma query_errors_propagate_witness :
  result (run (counting_world [] (inl ValidationError))
              (dataset_artifacts None) sample_record 0) = inl ValidationError
  ∧ result (run (counting_world [] (inl Throttled))
                (models (Some BOTH)) sample_record 0) = inl Throttled.
Proof.
  split.
  - exact (proj1 (proj1 (query_errors_propagate
      (counting_world [] (inl ValidationError)) sample_record 0 1
      ValidationError None) eq_refl)).
  - exact (proj1 (proj2 (query_errors_propagate
      (counting_world [] (inl Throttled)) sample_record 0 1
      Throttled (Some BOTH)) eq_refl)).
Defined.

(** ** The record operations: delete, update, load *)

Section RecordOperations.
Context {W : Type} (h : handler W).

Lemma run_payload members self w :
  run h (payload members) self w
  = mkOutcome (inr (selected self members)) self w [].
Proof.
  induction members as [|name rest IH]; [reflexivity|].
  cbn [payload selected]. change (self_attr name) with (GetAttr name Ret).
  cbn [mbind prog_mbind prog_bind run].
  change (prog_bind ?f ?m) with (m ≫= f).
  rewrite run_bind, IH. unfold then_run; cbn.
  by destruct (populated (getattr self name)).
Qed.

Lemma run_record_operation boto_method members self w :
  trace (run h (record_operation boto_method members) self w)
  = [boto (sagemaker_session self) boto_method (selected self members)]
  ∧ self_after (run h (record_operation boto_method members) self w) = self.
Proof.
  unfold record_operation. change self_session with (GetSession Ret).
  cbn [mbind prog_mbind prog_bind run].
  change (prog_bind ?f ?m) with (m ≫= f).
  rewrite run_bind, run_payload. unfold then_run.
  cbn [result self_after world_after trace].
  rewrite run_bind, run_invoke. unfold then_run.
  cbn [result self_after world_after trace app].
  by destruct (h _ w) as [[e|kwargs] w1].
Qed.

Lemma selected_lookup self members name v :
  selected self members !! name = Some v
  ↔ name ∈ members ∧ v = getattr self name ∧ populated v = true.
Proof.
  induction members as [|m rest IH]; cbn [selected].
  - rewrite lookup_empty. split; [done|]. intros [H _]. by apply elem_of_nil in H.
  - destruct (populated (getattr self m)) eqn:Hpop.
    + rewrite lookup_insert. case_decide as Hm.
      * subst m. split.
        -- intros [= <-]. split; [left|done].
        -- intros (_ & -> & _). done.
      * rewrite IH, elem_of_cons. split.
        -- intros (Hin & Hv & Hp). split; [by right|done].
        -- intros ([->|Hin] & Hv & Hp); done.
    + rewrite IH, elem_of_cons. split.
      * intros (Hin & Hv & Hp). split; [by right|done].
      * intros ([->|Hin] & -> & Hp); [congruence|done].
Qed.

Lemma run_load name session self w :
  run h (load name session) self w
  = match h (boto (default default_session session) _boto_load_method
                  {[ "trial_component_name" := VStr name ]}) w with
    | (inl e, w1) =>
        mkOutcome (inl e) self w1
          [boto (default default_session session) _boto_load_method
                {[ "trial_component_name" := VStr name ]}]
    | (inr fields, w1) =>
        mkOutcome
          (inr {| sagemaker_session := default default_session session;
                  vars := (fields : gmap string value)
                          ∪ {[ "trial_component_name" := VStr name ]} |})
          self w1
          [boto (default default_session session) _boto_load_method
                {[ "trial_component_name" := VStr name ]}]
    end.
Proof.
  unfold load, _construct, invoke. cbv zeta.
  cbn [mbind prog_mbind prog_bind mret prog_mret run].
  by destruct (h _ w) as [[e|fields] w1].
Qed.

End RecordOperations.


(** C6: whatever the record's fields hold, [delete] transmits a payload
    with no field other than [trial_component_name] (present when it is
    populated), and the declared delete-payload field list is exactly
    ["trial_component_name"]. *)
Theorem delete_sends_only_the_name {W : Type} (h : handler W)
    (self : LineageTrialComponent) (w : W) :
  _boto_delete_members = ["trial_component_name"]
  ∧ ∃ kwargs,
      trace (run h delete self w)
      = [boto (sagemaker_session self) "delete_trial_component" kwargs]
      ∧ (∀ name, name ≠ "trial_component_name" → kwargs !! name = None)
      ∧ kwargs !! "trial_component_name"
        = (if populated (getattr self "trial_component_name")
           then Some (getattr self "trial_component_name") else None).
Proof.
  split; [reflexivity|].
  exists (selected self _boto_delete_members).
  split; [apply run_record_operation|]. split.
  - intros name Hne. apply eq_None_not_Some. intros [v Hv].
    apply selected_lookup in Hv as [Hin _].
    apply list_elem_of_singleton in Hin. done.
  - cbn. destruct (populated _); [apply lookup_insert_eq|apply lookup_empty].
Qed.




(** C8: for every name and session, when the remote store holds a trial
    component of that name, [load] fetches it with one call of the
    describe-operation [describe_trial_component] and returns a record
    that carries the stored fields and whose [trial_component_name] is the
    name asked for; when the store does not hold the name, [load] raises
    NotFound. *)
Theorem load_by_name {W : Type} (h : handler W)
    (store_of : W → gmap string (gmap string value))
    (self : LineageTrialComponent) (w : W)
    (name : string) (session : option Session) :
  serves h store_of →
  (∀ fields, store_of w !! name = Some fields →
     ∃ tc, result (run h (load name session) self w) = inr tc
           ∧ getattr tc "trial_component_name" = VStr name
           ∧ (∀ field v, fields !! field = Some v →
                field ≠ "trial_component_name" → getattr tc field = v)
           ∧ sagemaker_session tc = default default_session session
           ∧ trace (run h (load name session) self w)
             = [boto (default default_session session)
                     "describe_trial_component"
                     {[ "trial_component_name" := VStr name ]}])
  ∧ (store_of w !! name = None →
     result (run h (load name session) self w) = inl NotFound).
Proof.
  intros Hserves. rewrite run_load.
  rewrite (Hserves (default default_session session)
             {[ "trial_component_name" := VStr name ]} w).
  unfold describe_trial_component. rewrite lookup_singleton_eq.
  split.
  - intros fields ->. eexists. split; [reflexivity|]. split; [|split; [|done]].
    + unfold getattr; cbn [vars].
      by rewrite (lookup_union_Some_l _ _ _ (VStr name)) by apply lookup_insert_eq.
    + intros field v Hv Hne. unfold getattr; cbn [vars].
      rewrite (lookup_union_Some_l _ _ _ v); [done|].
      by rewrite lookup_insert_ne.
  - by intros ->.
Qed.

Lemma load_by_name_witness :
  (∃ tc, result (run store_world (load "tc-1" None) sample_record sample_store)
         = inr tc
         ∧ getattr tc "trial_component_name" = VStr "tc-1")
  ∧ result (run store_world (load "tc-9" None) sample_record sample_store)
    = inl NotFound.
Proof.
  assert (Hs : serves store_world (λ st, st)) by (intros s kw st; reflexivity).
  split.
  - destruct (proj1 (load_by_name store_world (λ st, st) sample_record
                       sample_store "tc-1" None Hs)
                    {[ "trial_component_arn" := VStr "arn:tc/tc-1";
                       "status" := VStr "Completed" ]} eq_refl)
      as (tc & Hr & Hn & _).
    exists tc. by split.
  - exact (proj2 (load_by_name store_world (λ st, st) sample_record
                    sample_store "tc-9" None Hs) eq_refl).
Defined.

Lemma delete_sends_only_the_name_witness :
  ∃ kwargs,
    trace (run store_world delete sample_record sample_store)
    = [boto (SessionRef 7) "delete_trial_component" kwargs]
    ∧ kwargs !! "display_name" = None
    ∧ kwargs !! "trial_component_name" = Some (VStr "tc-1").
Proof.
  destruct (proj2 (delete_sends_only_the_name store_world sample_record
                     sample_store)) as (kwargs & Ht & Hother & Hname).
  exists kwargs. split; [exact Ht|]. split; [|exact Hname].
  apply Hother. discriminate.
Defined.

(** ** What the operations do to the record *)

(** C10: [pipeline_execution_arn], [dataset_artifacts] and [models] leave
    the record as it was: for every record state and every behaviour of
    the remote calls, returned value or raised error, the fields after the
    call are the fields before it. *)
Theorem queries_leave_record_unchanged {W : Type} (h : handler W)
    (self : LineageTrialComponent) (w : W)
    (direction : option LineageQueryDirectionEnum) :
  self_after (run h pipeline_execution_arn self w) = self
  ∧ self_after (run h (dataset_artifacts direction) self w) = self
  ∧ self_after (run h (models direction) self w) = self.
Proof.
  split; [|split]; apply read_only_frame.
  - apply read_only_pipeline_execution_arn.
  - apply read_only_dataset_artifacts.
  - apply read_only_models.
Qed.




(** * Further properties of the methods *)

Section Conversions.
Context {W : Type} (h : handler W).

Lemma converts_length vs objs w w' :
  converts h w vs objs w' → length objs = length vs.
Proof. induction 1; cbn; [done|]. by f_equal. Qed.

Lemma run_to_lineage_objects_raises before vertex after objs e self w w1 w2 :
  converts h w before objs w1 →
  h (to_lineage_object vertex) w1 = (inl e, w2) →
  run h (to_lineage_objects (before ++ vertex :: after)) self w
  = mkOutcome (inl e) self w2 (map to_lineage_object (before ++ [vertex])).
Proof.
  intros Hc Hv.
  induction Hc as [w|w wa wb v vs obj objs Hh _ IH]; cbn [app].
  - by rewrite run_to_lineage_objects_cons, run_invoke, Hv.
  - rewrite run_to_lineage_objects_cons, run_invoke, Hh.
    unfold then_run; cbn [result self_after world_after trace fst snd].
    rewrite run_bind. cbn [response]. by rewrite (IH Hv).
Qed.

Lemma run_to_lineage_objects_inv vs objs self w :
  result (run h (to_lineage_objects vs) self w) = inr objs →
  converts h w vs objs (world_after (run h (to_lineage_objects vs) self w)).
Proof.
  revert objs w. induction vs as [|v vs IH]; intros objs w.
  - cbn. intros [= <-]. constructor.
  - rewrite run_to_lineage_objects_cons, run_invoke.
    unfold then_run; cbn [result self_after world_after trace].
    destruct (h (to_lineage_object v) w) as [[e|obj] w1] eqn:Hv;
      cbn [fst snd]; [done|].
    rewrite run_bind. cbn [response]. unfold then_run.
    specialize (IH).
    destruct (run h (to_lineage_objects vs) self w1)
      as [[e|objs'] self1 w2 t] eqn:Hrest; cbn; [done|].
    intros [= <-]. eapply converts_cons; [exact Hv|].
    specialize (IH objs' w1). rewrite Hrest in IH. by apply IH.
Qed.

Lemma trace_to_lineage_objects vs self w c :
  c ∈ trace (run h (to_lineage_objects vs) self w) →
  ∃ v, v ∈ vs ∧ c = to_lineage_object v.
Proof.
  revert w. induction vs as [|v vs IH]; intros w.
  - cbn. intros Hc. by apply elem_of_nil in Hc.
  - rewrite run_to_lineage_objects_cons, run_invoke.
    unfold then_run; cbn [result self_after world_after trace].
    destruct (h (to_lineage_object v) w) as [[e|obj] w1]; cbn [fst snd].
    + intros Hc. apply list_elem_of_singleton in Hc as ->.
      exists v. split; [left|done].
    + rewrite run_bind. cbn [response]. unfold then_run.
      specialize (IH w1).
      destruct (run h (to_lineage_objects vs) self w1)
        as [[e|objs'] self1 w2 t]; cbn in *.
      * intros [->|Hc]%elem_of_cons.
        -- exists v. split; [left|done].
        -- destruct (IH Hc) as (v' & Hin & ->). exists v'. split; [by right|done].
      * rewrite app_nil_r. intros [->|Hc]%elem_of_cons.
        -- exists v. split; [left|done].
        -- destruct (IH Hc) as (v' & Hin & ->). exists v'. split; [by right|done].
Qed.

Lemma run_to_lineage_objects_self vs self self' w :
  run h (to_lineage_objects vs) self w
  = mkOutcome (result (run h (to_lineage_objects vs) self' w)) self
      (world_after (run h (to_lineage_objects vs) self' w))
      (trace (run h (to_lineage_objects vs) self' w)).
Proof.
  revert w. induction vs as [|v vs IH]; intros w; [reflexivity|].
  rewrite !run_to_lineage_objects_cons, !run_invoke.
  unfold then_run; cbn [result self_after world_after trace].
  destruct (h (to_lineage_object v) w) as [[e|obj] w1]; cbn [fst snd]; [done|].
  rewrite !run_bind. cbn [response]. rewrite (IH w1). unfold then_run.
  by destruct (run h (to_lineage_objects vs) self' w1) as [[e|objs'] self1 w2 t].
Qed.

Lemma run_to_lineage_objects_ext (h' : handler W) vs self w :
  (∀ v w0, h (to_lineage_object v) w0 = h' (to_lineage_object v) w0) →
  run h (to_lineage_objects vs) self w = run h' (to_lineage_objects vs) self w.
Proof.
  intros Hsame. revert w. induction vs as [|v vs IH]; intros w; [reflexivity|].
  rewrite !run_to_lineage_objects_cons, !run_invoke, <-Hsame.
  unfold then_run; cbn [result self_after world_after trace].
  destruct (h (to_lineage_object v) w) as [[e|obj] w1]; cbn [fst snd]; [done|].
  rewrite !run_bind. cbn [response]. by rewrite (IH w1).
Qed.

End Conversions.

Section QueryShape.
Context {W : Type} (h : handler W).

Lemma source_query_spec_conversion_raises source direction self w found w1
    before vertex after objs w2 e w3 :
  h (traversal_request self source direction) w = (inr found, w1) →
  vertices found = before ++ vertex :: after →
  converts h w1 before objs w2 →
  h (to_lineage_object vertex) w2 = (inl e, w3) →
  run h (source_query_spec source direction) self w
  = mkOutcome (inl e) self w3
      (traversal_request self source direction
       :: map to_lineage_object (before ++ [vertex])).
Proof.
  intros Hq Hvs Hc Hv. rewrite run_source_query_spec, Hq, Hvs.
  by rewrite (run_to_lineage_objects_raises h _ _ _ _ _ _ _ _ _ Hc Hv).
Qed.

Lemma source_query_spec_inv source direction self w found w1 objs :
  h (traversal_request self source direction) w = (inr found, w1) →
  result (run h (source_query_spec source direction) self w) = inr objs →
  converts h w1 (vertices found) objs
    (world_after (run h (source_query_spec source direction) self w))
  ∧ length objs = length (vertices found).
Proof.
  intros Hq. rewrite run_source_query_spec, Hq.
  cbn [result world_after]. intros Hr.
  pose proof (run_to_lineage_objects_inv h _ _ _ _ Hr) as Hc.
  split; [exact Hc|]. exact (converts_length h _ _ _ _ Hc).
Qed.

Lemma source_query_spec_trace source direction self w c :
  c ∈ trace (run h (source_query_spec source direction) self w) →
  c = traversal_request self source direction
  ∨ ∃ found w1 v,
      h (traversal_request self source direction) w = (inr found, w1)
      ∧ v ∈ vertices found ∧ c = to_lineage_object v.
Proof.
  rewrite run_source_query_spec.
  destruct (h (traversal_request self source direction) w)
    as [[e|found] w1]; cbn [trace].
  - intros Hc. apply list_elem_of_singleton in Hc. by left.
  - intros [->|Hc]%elem_of_cons; [by left|]. right.
    destruct (trace_to_lineage_objects h _ _ _ _ Hc) as (v & Hin & ->).
    by exists found, w1, v.
Qed.

Lemma source_query_spec_self source direction self self' w :
  sagemaker_session self = sagemaker_session self' →
  getattr self "trial_component_arn" = getattr self' "trial_component_arn" →
  result (run h (source_query_spec source direction) self w)
  = result (run h (source_query_spec source direction) self' w)
  ∧ world_after (run h (source_query_spec source direction) self w)
    = world_after (run h (source_query_spec source direction) self' w)
  ∧ trace (run h (source_query_spec source direction) self w)
    = trace (run h (source_query_spec source direction) self' w).
Proof.
  intros Hs Ha. rewrite !run_source_query_spec. unfold traversal_request.
  rewrite Hs, Ha.
  destruct (h _ w) as [[e|found] w1]; [done|].
  cbn [result world_after trace].
  by rewrite (run_to_lineage_objects_self h _ self self').
Qed.

Lemma source_query_spec_edges (h' : handler W) source direction self w
    found found' w1 :
  h (traversal_request self source direction) w = (inr found, w1) →
  h' (traversal_request self source direction) w = (inr found', w1) →
  vertices found = vertices found' →
  (∀ v w0, h (to_lineage_object v) w0 = h' (to_lineage_object v) w0) →
  run h (source_query_spec source direction) self w
  = run h' (source_query_spec source direction) self w.
Proof.
  intros Hq Hq' Hvs Hsame. rewrite !run_source_query_spec, Hq, Hq', Hvs.
  by rewrite (run_to_lineage_objects_ext h h' _ _ _ Hsame).
Qed.

End QueryShape.

(** ** models: request and result *)

(** X1: for every direction [d], [models(direction=d)] issues exactly one
    traversal request, with entity filter {ARTIFACT}, source filter
    {MODEL}, the record's [trial_component_arn] as only start arn,
    direction [d] and [include_edges=False]; when the engine answers and
    each vertex converts, it returns the converted vertices in result
    order, and the empty list for a result without vertices. *)
Theorem models_request_and_result {W : Type} (h : handler W)
    (self : LineageTrialComponent) (w : W) (d : LineageQueryDirectionEnum) :
  queries_of (trace (run h (models (Some d)) self w))
  = [ query (sagemaker_session self) [getattr self "trial_component_arn"]
            {| entities := [ARTIFACT]; sources := [MODEL] |} d false ]
  ∧ (∀ found w1 objs w2,
       h (query (sagemaker_session self) [getattr self "trial_component_arn"]
                {| entities := [ARTIFACT]; sources := [MODEL] |} d false) w
       = (inr found, w1) →
       converts h w1 (vertices found) objs w2 →
       run h (models (Some d)) self w
       = mkOutcome (inr objs) self w2
           (query (sagemaker_session self) [getattr self "trial_component_arn"]
                  {| entities := [ARTIFACT]; sources := [MODEL] |} d false
            :: map to_lineage_object (vertices found)))
  ∧ (∀ found w1,
       h (query (sagemaker_session self) [getattr self "trial_component_arn"]
                {| entities := [ARTIFACT]; sources := [MODEL] |} d false) w
       = (inr found, w1) →
       vertices found = [] →
       result (run h (models (Some d)) self w) = inr []).
Proof.
  rewrite run_models_shape. cbn [default from_option id].
  split; [apply queries_of_source_query_spec|]. split.
  - intros found w1 objs w2 Hq Hc.
    exact (source_query_spec_returns h MODEL d self w found w1 objs w2 Hq Hc).
  - intros found w1 Hq Hnil.
    assert (Hc : converts h w1 (vertices found) [] w1)
      by (rewrite Hnil; constructor).
    by rewrite (source_query_spec_returns h MODEL d self w found w1 [] w1 Hq Hc).
Qed.

Lemma models_request_and_result_witness :
  result (run (counting_world [] (inr (mkLineageQueryResult [] sample_vertices)))
              (models (Some ASCENDANTS)) sample_record 0)
  = inr [ArtifactObject "arn:artifact/a"; ArtifactObject "arn:artifact/b"].
Proof.
  refine (f_equal result (proj1 (proj2 (models_request_and_result
      (counting_world [] (inr (mkLineageQueryResult [] sample_vertices)))
      sample_record 0 ASCENDANTS))
    (mkLineageQueryResult [] sample_vertices) 1
    [ArtifactObject "arn:artifact/a"; ArtifactObject "arn:artifact/b"] 3
    eq_refl _)).
  eapply converts_cons; [reflexivity|].
  eapply converts_cons; [reflexivity|]. apply converts_nil.
Defined.

(** ** Failing conversions *)

(** X2: when the engine answers and the conversion of some vertex raises
    after the vertices before it converted, [dataset_artifacts] and
    [models] raise that error: no partial list is returned, the vertices
    after the failing one are never converted, and the record is
    unchanged. *)
Theorem conversion_errors_propagate {W : Type} (h : handler W)
    (self : LineageTrialComponent) (w w1 w2 w3 : W)
    (direction : option LineageQueryDirectionEnum)
    (found : LineageQueryResult) (before after : list Vertex)
    (vertex : Vertex) (objs : list LineageObject) (e : exn) :
  vertices found = before ++ vertex :: after →
  converts h w1 before objs w2 →
  h (to_lineage_object vertex) w2 = (inl e, w3) →
  (h (traversal_request self DATASET (default ASCENDANTS direction)) w
   = (inr found, w1) →
   run h (dataset_artifacts direction) self w
   = mkOutcome (inl e) self w3
       (traversal_request self DATASET (default ASCENDANTS direction)
        :: map to_lineage_object (before ++ [vertex])))
  ∧ (h (traversal_request self MODEL (default DESCENDANTS direction)) w
     = (inr found, w1) →
     run h (models direction) self w
     = mkOutcome (inl e) self w3
         (traversal_request self MODEL (default DESCENDANTS direction)
          :: map to_lineage_object (before ++ [vertex]))).
Proof.
  intros Hvs Hc Hv. split; intros Hq.
  - rewrite run_dataset_artifacts_shape.
    exact (source_query_spec_conversion_raises h _ _ self w found w1
             before vertex after objs w2 e w3 Hq Hvs Hc Hv).
  - rewrite run_models_shape.
    exact (source_query_spec_conversion_raises h _ _ self w found w1
             before vertex after objs w2 e w3 Hq Hvs Hc Hv).
Qed.

Lemma conversion_errors_propagate_witness :
  run (counting_world [] (inr (mkLineageQueryResult [] sample_mixed_vertices)))
      (dataset_artifacts None) sample_record 0
  = mkOutcome (inl ValidationError) sample_record 3
      [ traversal_request sample_record DATASET ASCENDANTS;
        to_lineage_object (mkVertex "arn:artifact/a" "Artifact" "DataSet");
        to_lineage_object (mkVertex "arn:context/c" "Context" "Endpoint") ].
Proof.
  refine (proj1 (conversion_errors_propagate
    (counting_world [] (inr (mkLineageQueryResult [] sample_mixed_vertices)))
    sample_record 0 1 2 3 None
    (mkLineageQueryResult [] sample_mixed_vertices)
    [mkVertex "arn:artifact/a" "Artifact" "DataSet"]
    [mkVertex "arn:artifact/b" "Artifact" "DataSet"]
    (mkVertex "arn:context/c" "Context" "Endpoint")
    [ArtifactObject "arn:artifact/a"] ValidationError
    eq_refl _ eq_refl) eq_refl).
  eapply converts_cons; [reflexivity|]. apply converts_nil.
Defined.

(** X3: a list returned by [dataset_artifacts] or [models] is never
    partial: when the engine answered and the method returns a list, every
    vertex of the answer converted, in order, and the list has one object
    per vertex. *)
Theorem returned_list_is_complete {W : Type} (h : handler W)
    (self : LineageTrialComponent) (w w1 : W)
    (direction : option LineageQueryDirectionEnum)
    (found : LineageQueryResult) (objs : list LineageObject) :
  (h (traversal_request self DATASET (default ASCENDANTS direction)) w
   = (inr found, w1) →
   result (run h (dataset_artifacts direction) self w) = inr objs →
   converts h w1 (vertices found) objs
     (world_after (run h (dataset_artifacts direction) self w))
   ∧ length objs = length (vertices found))
  ∧ (h (traversal_request self MODEL (default DESCENDANTS direction)) w
     = (inr found, w1) →
     result (run h (models direction) self w) = inr objs →
     converts h w1 (vertices found) objs
       (world_after (run h (models direction) self w))
     ∧ length objs = length (vertices found)).
Proof.
  split; intros Hq.
  - rewrite run_dataset_artifacts_shape. by apply source_query_spec_inv.
  - rewrite run_models_shape. by apply source_query_spec_inv.
Qed.

Lemma returned_list_is_complete_witness :
  length [ArtifactObject "arn:artifact/a"; ArtifactObject "arn:artifact/b"]
  = length sample_vertices.
Proof.
  exact (proj2 (proj2 (returned_list_is_complete
    (counting_world [] (inr (mkLineageQueryResult [] sample_vertices)))
    sample_record 0 1 (Some BOTH)
    (mkLineageQueryResult [] sample_vertices)
    [ArtifactObject "arn:artifact/a"; ArtifactObject "arn:artifact/b"])
    eq_refl eq_refl)).
Defined.

(** X4: the only calls [dataset_artifacts] and [models] make are their
    traversal request and conversions of vertices that the engine
    returned for it: they never list tags and never call a
    create/describe/update/delete operation. *)
Theorem query_methods_call_nothing_else {W : Type} (h : handler W)
    (self : LineageTrialComponent) (w : W)
    (direction : option LineageQueryDirectionEnum) (c : call) :
  (c ∈ trace (run h (dataset_artifacts direction) self w) →
   c = traversal_request self DATASET (default ASCENDANTS direction)
   ∨ ∃ found w1 v,
       h (traversal_request self DATASET (default ASCENDANTS direction)) w
       = (inr found, w1)
       ∧ v ∈ vertices found ∧ c = to_lineage_object v)
  ∧ (c ∈ trace (run h (models direction) self w) →
     c = traversal_request self MODEL (default DESCENDANTS direction)
     ∨ ∃ found w1 v,
         h (traversal_request self MODEL (default DESCENDANTS direction)) w
         = (inr found, w1)
         ∧ v ∈ vertices found ∧ c = to_lineage_object v).
Proof.
  split.
  - rewrite run_dataset_artifacts_shape. apply source_query_spec_trace.
  - rewrite run_models_shape. apply source_query_spec_trace.
Qed.

Lemma query_methods_call_nothing_else_witness :
  to_lineage_object (mkVertex "arn:artifact/b" "Artifact" "DataSet")
  = traversal_request sample_record MODEL DESCENDANTS
  ∨ ∃ found w1 v,
      counting_world [] (inr (mkLineageQueryResult [] sample_vertices))
        (traversal_request sample_record MODEL DESCENDANTS) 0
      = (inr found, w1)
      ∧ v ∈ vertices found
      ∧ to_lineage_object (mkVertex "arn:artifact/b" "Artifact" "DataSet")
        = to_lineage_object v.
Proof.
  apply (proj2 (query_methods_call_nothing_else
    (counting_world [] (inr (mkLineageQueryResult [] sample_vertices)))
    sample_record 0 None
    (to_lineage_object (mkVertex "arn:artifact/b" "Artifact" "DataSet")))).
  vm_compute. apply elem_of_cons; right. apply elem_of_cons; right.
  apply elem_of_cons; by left.
Defined.

(** ** pipeline_execution_arn: calls, errors, and the scan *)

Lemma pipeline_execution_arn_loop_head tags :
  pipeline_execution_arn_loop tags
  = Value <$> head (filter (λ t, Key t = pipeline_execution_arn_key) tags).
Proof.
  induction tags as [|t tags IH]; [reflexivity|].
  cbn [pipeline_execution_arn_loop]. rewrite filter_cons.
  destruct (decide (Key t = pipeline_execution_arn_key)); [reflexivity|exact IH].
Qed.

Lemma pipeline_execution_arn_loop_Some tags v :
  pipeline_execution_arn_loop tags = Some v →
  ∃ tag, tag ∈ tags ∧ Key tag = pipeline_execution_arn_key ∧ Value tag = v.
Proof.
  induction tags as [|t tags IH]; cbn; [done|].
  destruct (decide (Key t = pipeline_execution_arn_key)) as [Hk|Hk].
  - intros [= <-]. exists t. split; [left|done].
  - intros Hv. destruct (IH Hv) as (tag & Hin & Hkey & Hval).
    exists tag. split; [by right|done].
Qed.

Lemma pipeline_execution_arn_loop_None tags :
  pipeline_execution_arn_loop tags = None →
  Forall (λ t, Key t ≠ pipeline_execution_arn_key) tags.
Proof.
  induction tags as [|t tags IH]; cbn; [constructor|].
  destruct (decide (Key t = pipeline_execution_arn_key)) as [Hk|Hk]; [done|].
  intros Hnone. constructor; [exact Hk|by apply IH].
Qed.

(** X5: whatever the remote does, [pipeline_execution_arn] makes exactly
    one call, [list_tags] on the record's session with the record's
    [trial_component_arn] as [ResourceArn]; an error raised by that call
    is raised to the caller unchanged (it is not turned into [None]). *)
Theorem pipeline_execution_arn_single_call {W : Type} (h : handler W)
    (self : LineageTrialComponent) (w : W) :
  trace (run h pipeline_execution_arn self w)
  = [list_tags (sagemaker_session self) (getattr self "trial_component_arn")]
  ∧ (∀ e w',
       h (list_tags (sagemaker_session self)
                    (getattr self "trial_component_arn")) w = (inl e, w') →
       result (run h pipeline_execution_arn self w) = inl e
       ∧ world_after (run h pipeline_execution_arn self w) = w').
Proof.
  cbn. destruct (h _ w) as [[e|tags] w1]; cbn.
  - split; [done|]. by intros e' w' [= -> ->].
  - split; [done|]. intros e' w' [=].
Qed.

Lemma pipeline_execution_arn_single_call_witness :
  result (run (refusing_world Throttled) pipeline_execution_arn sample_record 0)
  = inl Throttled
  ∧ world_after (run (refusing_world Throttled) pipeline_execution_arn
                     sample_record 0) = 1.
Proof.
  exact (proj2 (pipeline_execution_arn_single_call (refusing_world Throttled)
                  sample_record 0) Throttled 1 eq_refl).
Defined.

(** X6: when [list_tags] returns, the result of [pipeline_execution_arn]
    is the value of the head of the sub-list of tags whose key is the
    reserved one; it is [None] exactly when no tag has that key, and a
    returned value is always the value of a tag of the list that carries
    the key. *)
Theorem pipeline_execution_arn_result_characterised {W : Type}
    (h : handler W) (self : LineageTrialComponent) (w w' : W)
    (tags : list Tag) :
  h (list_tags (sagemaker_session self) (getattr self "trial_component_arn")) w
  = (inr tags, w') →
  result (run h pipeline_execution_arn self w)
  = inr (Value <$> head (filter (λ t, Key t = "sagemaker:pipeline-execution-arn")
                                tags))
  ∧ (result (run h pipeline_execution_arn self w) = inr None
     ↔ Forall (λ t, Key t ≠ "sagemaker:pipeline-execution-arn") tags)
  ∧ (∀ v, result (run h pipeline_execution_arn self w) = inr (Some v) →
       ∃ tag, tag ∈ tags
              ∧ Key tag = "sagemaker:pipeline-execution-arn"
              ∧ Value tag = v).
Proof.
  intros Hh. rewrite (run_pipeline_execution_arn h self w tags w' Hh).
  cbn [result]. split; [|split].
  - f_equal. apply pipeline_execution_arn_loop_head.
  - split.
    + intros [= Hnone]. by apply pipeline_execution_arn_loop_None.
    + intros Hall. f_equal. by apply pipeline_execution_arn_loop_none.
  - intros v [= Hv]. by apply pipeline_execution_arn_loop_Some.
Qed.

Lemma pipeline_execution_arn_result_characterised_witness :
  result (run (counting_world [mkTag "team" "ml"; mkTag "stage" "dev"]
                              (inl Throttled))
              pipeline_execution_arn sample_record 0)
  = inr None.
Proof.
  apply (proj1 (proj2 (pipeline_execution_arn_result_characterised
    (counting_world [mkTag "team" "ml"; mkTag "stage" "dev"] (inl Throttled))
    sample_record 0 1 [mkTag "team" "ml"; mkTag "stage" "dev"] eq_refl))).
  repeat constructor; discriminate.
Defined.

(** X7: the scan of [pipeline_execution_arn] over a concatenation is the
    scan of the first part when that finds the key, and the scan of the
    second part otherwise: tags that follow a match never matter, and
    tags without the key in front of a list never matter. *)
Theorem pipeline_execution_arn_loop_app (tags1 tags2 : list Tag) :
  pipeline_execution_arn_loop (tags1 ++ tags2)
  = match pipeline_execution_arn_loop tags1 with
    | Some v => Some v
    | None => pipeline_execution_arn_loop tags2
    end.
Proof.
  induction tags1 as [|t tags1 IH]; [reflexivity|].
  cbn [app pipeline_execution_arn_loop].
  by destruct (decide (Key t = pipeline_execution_arn_key)).
Qed.

(** ** What the query methods depend on *)

(** X8: [dataset_artifacts] and [models] use the vertices of the engine's
    answer only: two behaviours whose answers carry the same vertices and
    different edges, and which convert vertices alike, give the same
    outcome. *)
Theorem query_methods_ignore_edges {W : Type} (h h' : handler W)
    (self : LineageTrialComponent) (w w1 : W)
    (direction : option LineageQueryDirectionEnum)
    (found found' : LineageQueryResult) :
  vertices found = vertices found' →
  (∀ v w0, h (to_lineage_object v) w0 = h' (to_lineage_object v) w0) →
  (h (traversal_request self DATASET (default ASCENDANTS direction)) w
   = (inr found, w1) →
   h' (traversal_request self DATASET (default ASCENDANTS direction)) w
   = (inr found', w1) →
   run h (dataset_artifacts direction) self w
   = run h' (dataset_artifacts direction) self w)
  ∧ (h (traversal_request self MODEL (default DESCENDANTS direction)) w
     = (inr found, w1) →
     h' (traversal_request self MODEL (default DESCENDANTS direction)) w
     = (inr found', w1) →
     run h (models direction) self w = run h' (models direction) self w).
Proof.
  intros Hvs Hsame. split; intros Hq Hq'.
  - rewrite !run_dataset_artifacts_shape.
    exact (source_query_spec_edges h h' _ _ self w found found' w1
             Hq Hq' Hvs Hsame).
  - rewrite !run_models_shape.
    exact (source_query_spec_edges h h' _ _ self w found found' w1
             Hq Hq' Hvs Hsame).
Qed.

Lemma query_methods_ignore_edges_witness :
  run (counting_world [] (inr (mkLineageQueryResult [] sample_vertices)))
      (models None) sample_record 0
  = run (counting_world []
           (inr (mkLineageQueryResult [("arn:tc/tc-1", "arn:artifact/a")]
                                      sample_vertices)))
        (models None) sample_record 0.
Proof.
  exact (proj2 (query_methods_ignore_edges
    (counting_world [] (inr (mkLineageQueryResult [] sample_vertices)))
    (counting_world []
       (inr (mkLineageQueryResult [("arn:tc/tc-1", "arn:artifact/a")]
                                  sample_vertices)))
    sample_record 0 1 None
    (mkLineageQueryResult [] sample_vertices)
    (mkLineageQueryResult [("arn:tc/tc-1", "arn:artifact/a")] sample_vertices)
    eq_refl (λ v w0, eq_refl)) eq_refl eq_refl).
Defined.

(** X9: the three methods read nothing of the record but its session and
    its [trial_component_arn]: on two records that agree on these two,
    each method makes the same calls, leaves the world in the same state
    and returns or raises the same. *)
Theorem methods_read_session_and_arn_only {W : Type} (h : handler W)
    (self self' : LineageTrialComponent) (w : W)
    (direction : option LineageQueryDirectionEnum) :
  sagemaker_session self = sagemaker_session self' →
  getattr self "trial_component_arn" = getattr self' "trial_component_arn" →
  (result (run h pipeline_execution_arn self w)
   = result (run h pipeline_execution_arn self' w)
   ∧ world_after (run h pipeline_execution_arn self w)
     = world_after (run h pipeline_execution_arn self' w)
   ∧ trace (run h pipeline_execution_arn self w)
     = trace (run h pipeline_execution_arn self' w))
  ∧ (result (run h (dataset_artifacts direction) self w)
     = result (run h (dataset_artifacts direction) self' w)
     ∧ world_after (run h (dataset_artifacts direction) self w)
       = world_after (run h (dataset_artifacts direction) self' w)
     ∧ trace (run h (dataset_artifacts direction) self w)
       = trace (run h (dataset_artifacts direction) self' w))
  ∧ (result (run h (models direction) self w)
     = result (run h (models direction) self' w)
     ∧ world_after (run h (models direction) self w)
       = world_after (run h (models direction) self' w)
     ∧ trace (run h (models direction) self w)
       = trace (run h (models direction) self' w)).
Proof.
  intros Hs Ha. split; [|split].
  - cbn. rewrite Hs, Ha. by destruct (h _ w) as [[e|tags] w1].
  - rewrite !run_dataset_artifacts_shape. by apply source_query_spec_self.
  - rewrite !run_models_shape. by apply source_query_spec_self.
Qed.

Lemma methods_read_session_and_arn_only_witness :
  result (run (counting_world sample_tags
                 (inr (mkLineageQueryResult [] sample_vertices)))
              (dataset_artifacts None) sample_record 0)
  = result (run (counting_world sample_tags
                   (inr (mkLineageQueryResult [] sample_vertices)))
                (dataset_artifacts None)
                (setattr sample_record "display_name" (VStr "second")) 0).
Proof.
  exact (proj1 (proj1 (proj2 (methods_read_session_and_arn_only
    (counting_world sample_tags (inr (mkLineageQueryResult [] sample_vertices)))
    sample_record (setattr sample_record "display_name" (VStr "second"))
    0 None eq_refl eq_refl)))).
Defined.

(** ** How the methods compose *)

Section Composition.
Context {W : Type} (h : handler W).

Lemma trace_pipeline_execution_arn self w :
  trace (run h pipeline_execution_arn self w)
  = [list_tags (sagemaker_session self) (getattr self "trial_component_arn")].
Proof. cbn. by destruct (h _ w) as [[e|tags] w1]. Qed.

(** A read-only call that returns, followed by a second call: the calls
    of the first, then the calls of the second made on the same record in
    the world the first left. *)
Lemma trace_two_calls {A B : Type} (m1 : prog A) (m2 : prog B) self w a :
  read_only m1 →
  result (run h m1 self w) = inr a →
  trace (run h (first ← m1; second ← m2; mret (first, second)) self w)
  = trace (run h m1 self w)
    ++ trace (run h m2 self (world_after (run h m1 self w))).
Proof.
  intros Hro Hr. rewrite run_bind. unfold then_run. rewrite Hr.
  cbn [trace]. f_equal. rewrite (read_only_frame h m1 Hro), run_bind.
  unfold then_run.
  destruct (result (run h m2 self (world_after (run h m1 self w))));
    cbn [trace]; [done|].
  cbn. by rewrite app_nil_r.
Qed.

Lemma queries_of_dataset_artifacts direction self w :
  queries_of (trace (run h (dataset_artifacts direction) self w))
  = [traversal_request self DATASET (default ASCENDANTS direction)].
Proof. rewrite run_dataset_artifacts_shape. apply queries_of_source_query_spec. Qed.

Lemma queries_of_models direction self w :
  queries_of (trace (run h (models direction) self w))
  = [traversal_request self MODEL (default DESCENDANTS direction)].
Proof. rewrite run_models_shape. apply queries_of_source_query_spec. Qed.

End Composition.

(** X10: nothing is cached on the record: a method called a second time
    after it returned asks the remote again, with the same request. *)
Theorem repeated_calls_ask_again {W : Type} (h : handler W)
    (self : LineageTrialComponent) (w : W)
    (direction : option LineageQueryDirectionEnum) :
  (∀ arn,
     result (run h pipeline_execution_arn self w) = inr arn →
     trace (run h (first ← pipeline_execution_arn;
                   second ← pipeline_execution_arn;
                   mret (first, second)) self w)
     = [ list_tags (sagemaker_session self) (getattr self "trial_component_arn");
         list_tags (sagemaker_session self) (getattr self "trial_component_arn") ])
  ∧ (∀ objs,
       result (run h (dataset_artifacts direction) self w) = inr objs →
       queries_of (trace (run h (first ← dataset_artifacts direction;
                                 second ← dataset_artifacts direction;
                                 mret (first, second)) self w))
       = [ traversal_request self DATASET (default ASCENDANTS direction);
           traversal_request self DATASET (default ASCENDANTS direction) ])
  ∧ (∀ objs,
       result (run h (models direction) self w) = inr objs →
       queries_of (trace (run h (first ← models direction;
                                 second ← models direction;
                                 mret (first, second)) self w))
       = [ traversal_request self MODEL (default DESCENDANTS direction);
           traversal_request self MODEL (default DESCENDANTS direction) ]).
Proof.
  split; [|split].
  - intros arn Hr.
    rewrite (trace_two_calls h _ _ self w arn
               read_only_pipeline_execution_arn Hr).
    by rewrite !trace_pipeline_execution_arn.
  - intros objs Hr.
    rewrite (trace_two_calls h _ _ self w objs
               (read_only_dataset_artifacts direction) Hr).
    unfold queries_of. rewrite List.filter_app. fold (queries_of).
    by rewrite !queries_of_dataset_artifacts.
  - intros objs Hr.
    rewrite (trace_two_calls h _ _ self w objs (read_only_models direction) Hr).
    unfold queries_of. rewrite List.filter_app. fold (queries_of).
    by rewrite !queries_of_models.
Qed.

Lemma repeated_calls_ask_again_witness :
  queries_of (trace (run (counting_world []
                            (inr (mkLineageQueryResult [] sample_vertices)))
                         (first ← models None; second ← models None;
                          mret (first, second)) sample_record 0))
  = [ traversal_request sample_record MODEL DESCENDANTS;
      traversal_request sample_record MODEL DESCENDANTS ].
Proof.
  exact (proj2 (proj2 (repeated_calls_ask_again
    (counting_world [] (inr (mkLineageQueryResult [] sample_vertices)))
    sample_record 0 None))
    [ArtifactObject "arn:artifact/a"; ArtifactObject "arn:artifact/b"]
    eq_refl).
Defined.

(** X11: the methods read [trial_component_arn] when they are called:
    after the attribute has been assigned a new value, the tag listing
    and the traversal requests use the new value; after any other data
    attribute of the class has been assigned, they use the value the
    record had. *)
Theorem methods_use_current_arn {W : Type} (h : handler W)
    (self : LineageTrialComponent) (w : W)
    (direction : option LineageQueryDirectionEnum)
    (name : string) (v : value) :
  trace (run h (_ ← assign "trial_component_arn" v; pipeline_execution_arn)
             self w)
  = [list_tags (sagemaker_session self) v]
  ∧ queries_of (trace (run h (_ ← assign "trial_component_arn" v;
                              dataset_artifacts direction) self w))
    = [ query (sagemaker_session self) [v]
              {| entities := [ARTIFACT]; sources := [DATASET] |}
              (default ASCENDANTS direction) false ]
  ∧ queries_of (trace (run h (_ ← assign "trial_component_arn" v;
                              models direction) self w))
    = [ query (sagemaker_session self) [v]
              {| entities := [ARTIFACT]; sources := [MODEL] |}
              (default DESCENDANTS direction) false ]
  ∧ (name ∈ class_attributes → name ≠ "trial_component_arn" →
     trace (run h (_ ← assign name v; pipeline_execution_arn) self w)
     = [list_tags (sagemaker_session self)
                  (getattr self "trial_component_arn")]
     ∧ queries_of (trace (run h (_ ← assign name v;
                                 dataset_artifacts direction) self w))
       = [traversal_request self DATASET (default ASCENDANTS direction)]
     ∧ queries_of (trace (run h (_ ← assign name v; models direction)
                               self w))
       = [traversal_request self MODEL (default DESCENDANTS direction)]).
Proof.
  assert (Hnew : getattr (setattr self "trial_component_arn" v)
                         "trial_component_arn" = v).
  { unfold getattr, setattr; cbn. by rewrite lookup_insert_eq. }
  change (run h (_ ← assign "trial_component_arn" v; pipeline_execution_arn)
              self w)
    with (run h pipeline_execution_arn
              (setattr self "trial_component_arn" v) w).
  change (run h (_ ← assign "trial_component_arn" v;
                 dataset_artifacts direction) self w)
    with (run h (dataset_artifacts direction)
              (setattr self "trial_component_arn" v) w).
  change (run h (_ ← assign "trial_component_arn" v; models direction) self w)
    with (run h (models direction) (setattr self "trial_component_arn" v) w).
  rewrite trace_pipeline_execution_arn, queries_of_dataset_artifacts,
    queries_of_models.
  unfold traversal_request. rewrite Hnew.
  split; [done|]. split; [done|]. split; [done|].
  intros _ Hne.
  change (run h (_ ← assign name v; pipeline_execution_arn) self w)
    with (run h pipeline_execution_arn (setattr self name v) w).
  change (run h (_ ← assign name v; dataset_artifacts direction) self w)
    with (run h (dataset_artifacts direction) (setattr self name v) w).
  change (run h (_ ← assign name v; models direction) self w)
    with (run h (models direction) (setattr self name v) w).
  rewrite trace_pipeline_execution_arn, queries_of_dataset_artifacts,
    queries_of_models.
  unfold traversal_request.
  by rewrite (getattr_setattr_ne self name "trial_component_arn" v Hne).
Qed.

Lemma methods_use_current_arn_witness :
  trace (run (counting_world sample_tags (inl Throttled))
             (_ ← assign "status" (VStr "Stopped"); pipeline_execution_arn)
             sample_record 0)
  = [list_tags (SessionRef 7) (getattr sample_record "trial_component_arn")].
Proof.
  refine (proj1 (proj2 (proj2 (proj2 (methods_use_current_arn
    (counting_world sample_tags (inl Throttled)) sample_record 0 None
    "status" (VStr "Stopped")))) _ _)).
  - by apply (bool_decide_unpack _); vm_compute.
  - discriminate.
Defined.

(** X12: the methods do not check that the record has an arn: on a record
    whose [trial_component_arn] was never set they still make their remote
    call, with [None] as resource arn or as the one start arn, and return
    or raise what the remote answers. *)
Theorem methods_on_a_record_without_arn {W : Type} (h : handler W)
    (self : LineageTrialComponent) (w : W)
    (direction : option LineageQueryDirectionEnum) :
  vars self !! "trial_component_arn" = None →
  trace (run h pipeline_execution_arn self w)
  = [list_tags (sagemaker_session self) VNone]
  ∧ queries_of (trace (run h (dataset_artifacts direction) self w))
    = [ query (sagemaker_session self) [VNone]
              {| entities := [ARTIFACT]; sources := [DATASET] |}
              (default ASCENDANTS direction) false ]
  ∧ queries_of (trace (run h (models direction) self w))
    = [ query (sagemaker_session self) [VNone]
              {| entities := [ARTIFACT]; sources := [MODEL] |}
              (default DESCENDANTS direction) false ]
  ∧ (∀ tags w',
       h (list_tags (sagemaker_session self) VNone) w = (inr tags, w') →
       result (run h pipeline_execution_arn self w)
       = inr (pipeline_execution_arn_loop tags)).
Proof.
  intros Hunset.
  assert (Harn : getattr self "trial_component_arn" = VNone)
    by (unfold getattr; by rewrite Hunset).
  rewrite trace_pipeline_execution_arn, queries_of_dataset_artifacts,
    queries_of_models.
  unfold traversal_request. rewrite Harn.
  split; [done|]. split; [done|]. split; [done|].
  intros tags w' Hh. rewrite <-Harn in Hh.
  by rewrite (run_pipeline_execution_arn h self w tags w' Hh).
Qed.

Lemma methods_on_a_record_without_arn_witness :
  result (run (counting_world sample_tags (inl Throttled))
              pipeline_execution_arn sample_unset_record 0)
  = inr (Some "arn:pipeline/1").
Proof.
  exact (proj2 (proj2 (proj2 (methods_on_a_record_without_arn
    (counting_world sample_tags (inl Throttled)) sample_unset_record 0 None
    eq_refl))) sample_tags 1 eq_refl).
Defined.

(** ** The class-level configuration *)

(** X13: the field lists of the class are consistent: the update
    allow-list has no duplicates and names declared attributes only, the
    delete list is part of the update allow-list, and the declared
    attributes that an update never sends are exactly the arn, [source],
    the creation and modification stamps, [metrics] and [tags]. *)
Theorem field_lists_are_consistent :
  NoDup class_attributes
  ∧ NoDup _boto_update_members
  ∧ _boto_update_members ⊆ class_attributes
  ∧ _boto_delete_members ⊆ _boto_update_members
  ∧ filter (λ name, name ∉ _boto_update_members) class_attributes
    = [ "trial_component_arn"; "source"; "creation_time"; "created_by";
        "last_modified_time"; "last_modified_by"; "metrics"; "tags" ].
Proof.
  split; [by apply (bool_decide_unpack _); vm_compute|].
  split; [by apply (bool_decide_unpack _); vm_compute|].
  split; [by apply (bool_decide_unpack _); vm_compute|].
  split; [by apply (bool_decide_unpack _); vm_compute|].
  by vm_compute.
Qed.
